(** * SplitMint: split allocation, transaction extraction and categorisation

    A shallow embedding of
      - [backend/db.py]          [calculate_split_amounts], [create_or_update_split]
      - [backend/main.py]        [create_split_endpoint]
      - [backend/parser.py]      [get_regex_patterns], [extract_date_from_text],
                                 [parse_transaction_from_email]
      - [backend/categorizer.py] [get_valid_categories], [categorize_merchant],
                                 [categorize_merchant_fallback]
    and the properties of the specification that concern them.

    Modelling conventions.
      - A Python [float] is an element of a type [F] with the operations of
        the class [PyFloat].  Two instances are given: IEEE binary64 (Rocq's
        primitive floats, the arithmetic CPython really uses) and exact
        rationals (the "decimal" reading of the specification).
      - A Python [dict] with string keys is a [gmap string pyval]; the
        participants list, which the code mutates in place, is a store that
        is threaded through the computation and is still observable when an
        exception is raised.
      - Text is a [string] of bytes (UTF-8 for the rupee sign).  Character
        classes, [str.lower], [str.strip] and case-insensitive matching act
        on the ASCII range; non-ASCII digits, spaces and case pairs of
        Unicode are not recognised.
      - Conversion of an [int] beyond the float range (OverflowError) is
        not modelled: [of_Z] is total. *)

From Stdlib Require Import ZArith QArith Qabs Floats Ascii String List Lia Lqa Bool.
From stdpp Require Import base option gmap strings list fin_maps.

Set Default Proof Using "Type".
Local Open Scope string_scope.
Local Open Scope Z_scope.

(* ===================================================================== *)
(** * Part I. Python numbers *)
(* ===================================================================== *)

(** Nearest integer to [a / b] for [0 < b], ties to even: the rounding of
    CPython's [round(x, ndigits)] on the exact value of [x]. *)
Definition round_half_even (a b : Z) : Z :=
  let q := a / b in
  let r := a mod b in
  if 2 * r <? b then q
  else if b <? 2 * r then q + 1
  else if Z.even q then q else q + 1.

Class PyFloat (F : Type) := {
  (** the float written [m * 10^-d]: literals and [float(str)] *)
  of_decimal : Z -> nat -> F;
  fadd : F -> F -> F;
  fsub : F -> F -> F;
  fmul : F -> F -> F;
  (** [x / y] for a non-zero [y] *)
  fdiv : F -> F -> F;
  fabs : F -> F;
  (** [x > y] *)
  fgt : F -> F -> bool;
  (** [x == 0] *)
  fzero : F -> bool;
  (** [round(x, 2)] *)
  fround2 : F -> F
}.

(** [float(i)] for an [int] *)
Definition of_Z `{PyFloat F} (z : Z) : F := of_decimal z 0.

(** ** IEEE binary64 *)
Module B64.

Definition Z2SF (m : Z) : spec_float :=
  match m with
  | Z0 => S754_zero false
  | Zpos p => S754_finite false p 0
  | Zneg p => S754_finite true p 0
  end.

(** correctly rounded [m / 10^d] *)
Definition decimal (m : Z) (d : nat) : float :=
  SF2Prim (SFdiv prec emax (Z2SF m) (S754_finite false (Z.to_pos (10 ^ Z.of_nat d)) 0)).

(** [round(x, 2)]: the exact value [m * 2^e] of [x] is rounded to the
    nearest multiple of 1/100 (ties to even) and that decimal is
    converted back to the nearest double; integers, zeros, infinities
    and NaN are returned unchanged. *)
Definition round2 (x : float) : float :=
  match Prim2SF x with
  | S754_finite s m e =>
      if 0 <=? e then x
      else
        let k := round_half_even (100 * Zpos m) (2 ^ (- e)) in
        if k =? 0 then (if s then (-0)%float else 0%float)
        else decimal (if s then - k else k) 2
  | _ => x
  end.

#[global] Instance ops : PyFloat float := {
  of_decimal := decimal;
  fadd := PrimFloat.add;
  fsub := PrimFloat.sub;
  fmul := PrimFloat.mul;
  fdiv := PrimFloat.div;
  fabs := PrimFloat.abs;
  fgt x y := PrimFloat.ltb y x;
  fzero x := PrimFloat.eqb x 0%float;
  fround2 := round2
}.

End B64.

(** ** Exact rationals *)
Module Exact.

Definition decimal (m : Z) (d : nat) : Q := Qred (m # Z.to_pos (10 ^ Z.of_nat d)).

Definition round2 (x : Q) : Q :=
  Qred (round_half_even (100 * Qnum x) (Zpos (Qden x)) # 100).

#[global] Instance ops : PyFloat Q := {
  of_decimal := decimal;
  fadd x y := Qred (x + y);
  fsub x y := Qred (x - y);
  fmul x y := Qred (x * y);
  fdiv x y := Qred (x / y);
  fabs x := Qred (Qabs x);
  fgt x y := negb (Qle_bool x y);
  fzero x := Qeq_bool x 0;
  fround2 := round2
}.

End Exact.

(* ===================================================================== *)
(** * Part II. Python values, exceptions and the participants store *)
(* ===================================================================== *)

Section Python.
Context {F : Type} `{PyFloat F}.

(** The values a participant dictionary holds. *)
Inductive pyval :=
| PNone
| PInt (i : Z)
| PFloat (x : F)
| PStr (s : string).

(** A piece of an f-string: literal text or an interpolated value. *)
Inductive frag :=
| Lit (s : string)
| Fmt (v : pyval).

Inductive exn :=
| ValueError (msg : list frag)
| TypeError
| ZeroDivisionError.

Definition res (A : Type) : Type := exn + A.

Definition is_number (v : pyval) : bool :=
  match v with PInt _ | PFloat _ => true | _ => false end.

(** Binary arithmetic on two numbers, an [int] being converted when the
    other operand is a [float]. *)
Definition arith (fi : Z -> Z -> Z) (ff : F -> F -> F) (a b : pyval) : res pyval :=
  match a, b with
  | PInt i, PInt j => inr (PInt (fi i j))
  | PInt i, PFloat y => inr (PFloat (ff (of_Z i) y))
  | PFloat x, PInt j => inr (PFloat (ff x (of_Z j)))
  | PFloat x, PFloat y => inr (PFloat (ff x y))
  | _, _ => inl TypeError
  end.

(** [a + b] where [a] is a number (the accumulator of [sum]) *)
Definition py_add : pyval -> pyval -> res pyval := arith Z.add fadd.
(** [a - b] *)
Definition py_sub : pyval -> pyval -> res pyval := arith Z.sub fsub.
(** [a * b] where [a] is a [float] (a quotient) *)
Definition py_mul : pyval -> pyval -> res pyval := arith Z.mul fmul.

(** [a / b], true division *)
Definition py_truediv (a b : pyval) : res pyval :=
  match a, b with
  | PInt i, PInt j =>
      if j =? 0 then inl ZeroDivisionError else inr (PFloat (fdiv (of_Z i) (of_Z j)))
  | PInt i, PFloat y =>
      if fzero y then inl ZeroDivisionError else inr (PFloat (fdiv (of_Z i) y))
  | PFloat x, PInt j =>
      if j =? 0 then inl ZeroDivisionError else inr (PFloat (fdiv x (of_Z j)))
  | PFloat x, PFloat y =>
      if fzero y then inl ZeroDivisionError else inr (PFloat (fdiv x y))
  | _, _ => inl TypeError
  end.

(** [abs(a)] *)
Definition py_abs (a : pyval) : res pyval :=
  match a with
  | PInt i => inr (PInt (Z.abs i))
  | PFloat x => inr (PFloat (fabs x))
  | _ => inl TypeError
  end.

(** [a > t] for a float literal [t] *)
Definition py_gt (a : pyval) (t : F) : res bool :=
  match a with
  | PInt i => inr (fgt (of_Z i) t)
  | PFloat x => inr (fgt x t)
  | _ => inl TypeError
  end.

(** [round(a, 2)]: an [int] is returned as it is *)
Definition py_round2 (a : pyval) : res pyval :=
  match a with
  | PInt i => inr (PInt i)
  | PFloat x => inr (PFloat (fround2 x))
  | _ => inl TypeError
  end.

(** [sum(vs)], which starts from the [int] 0 and adds from the left *)
Fixpoint sum_from (acc : pyval) (vs : list pyval) : res pyval :=
  match vs with
  | [] => inr acc
  | v :: vs' =>
      match py_add acc v with
      | inl e => inl e
      | inr acc' => sum_from acc' vs'
      end
  end.

Definition py_sum (vs : list pyval) : res pyval := sum_from (PInt 0) vs.

(** ** Dictionaries and the store *)

Abbreviation dict := (gmap string pyval).

(** [p.get(key, dflt)] *)
Definition get (p : dict) (key : string) (dflt : pyval) : pyval :=
  default dflt (p !! key).

(** ** Computations that read and write a mutable object

    A computation over a state [S] maps the state before to an outcome
    and the state after; the state after is there also when an
    exception is raised, because the caller still holds the object. *)

Inductive outcome (A : Type) :=
| Ret (a : A)
| Raise (e : exn).
Global Arguments Ret {A} a.
Global Arguments Raise {A} e.

Definition M (S A : Type) : Type := S -> outcome A * S.

Definition ret {S A} (a : A) : M S A := fun st => (Ret a, st).
Definition raise {S A} (e : exn) : M S A := fun st => (Raise e, st).
Definition bind {S A B} (m : M S A) (k : A -> M S B) : M S B :=
  fun st =>
    match m st with
    | (Ret a, st') => k a st'
    | (Raise e, st') => (Raise e, st')
    end.
(** a pure computation that may raise *)
Definition lift {S A} (r : res A) : M S A :=
  match r with
  | inl e => raise e
  | inr a => ret a
  end.

(** [participant.get(key, dflt)] and [participant[key] = v] *)
Definition getitem (key : string) (dflt : pyval) : M dict pyval :=
  fun p => (Ret (get p key dflt), p).
Definition setitem (key : string) (v : pyval) : M dict unit :=
  fun p => (Ret tt, <[key := v]> p).

(** The participants list: the caller's dictionaries, in order. *)
Abbreviation store := (list dict).

(** [len(participants)] *)
Definition len : M store pyval :=
  fun ps => (Ret (PInt (Z.of_nat (length ps))), ps).

(** the values a generator expression [p.get(key, dflt) for p in
    participants] yields *)
Definition gen (key : string) (dflt : pyval) : M store (list pyval) :=
  fun ps => (Ret (map (fun p => get p key dflt) ps), ps).

(** [for participant in participants: body].  The body runs on each
    dictionary in turn; when it raises, the dictionaries visited so far,
    the current one included, keep what was written to them. *)
Fixpoint for_each (body : M dict unit) (ps : store) : outcome unit * store :=
  match ps with
  | [] => (Ret tt, [])
  | p :: rest =>
      match body p with
      | (Raise e, p') => (Raise e, p' :: rest)
      | (Ret _, p') =>
          let '(o, rest') := for_each body rest in (o, p' :: rest')
      end
  end.

End Python.

Arguments pyval F : clear implicits.
Arguments frag F : clear implicits.
Arguments exn F : clear implicits.
Arguments res F A : clear implicits.
Abbreviation dict F := (gmap string (pyval F)).
Abbreviation store F := (list (gmap string (pyval F))).
Arguments outcome F A : clear implicits.
Arguments M F S A : clear implicits.

Declare Scope py_scope.
Delimit Scope py_scope with py.
Notation "x <- m ;; k" := (bind m (fun x => k))
  (at level 100, m at next level, k at level 200, right associativity) : py_scope.
Notation "m ;;; k" := (bind m (fun _ => k))
  (at level 100, k at level 200, right associativity) : py_scope.

(* ===================================================================== *)
(** * Part III. [calculate_split_amounts] (backend/db.py) *)
(* ===================================================================== *)

Section Split.
Context {F : Type} `{PyFloat F}.
Local Open Scope py_scope.

(** the two messages of [ValueError] *)
Definition percentage_message (total_percentage : pyval F) : list (frag F) :=
  [Lit "Percentages must add up to 100, got "; Fmt total_percentage].

Definition total_paid_message (total_paid : pyval F) (total_amount : F) : list (frag F) :=
  [Lit "Total paid ("; Fmt total_paid;
   Lit ") must equal transaction amount ("; Fmt (PFloat total_amount); Lit ")"].

(** [abs(a - b) > 0.01] *)
Definition differs (a b : pyval F) : res F bool :=
  match py_sub a b with
  | inl e => inl e
  | inr d =>
      match py_abs d with
      | inl e => inl e
      | inr m => py_gt m (of_decimal 1 2)
      end
  end.

(** the bodies of the three loops that write the shares *)
Definition equal_body (share_amount num_participants : pyval F) : M F (dict F) unit :=
  v <- lift (py_round2 share_amount) ;;
  setitem "share_amount" v ;;;
  q <- lift (py_truediv (PInt 100) num_participants) ;;
  v <- lift (py_round2 q) ;;
  setitem "share_percentage" v ;;;
  setitem "share_ratio" (PInt 1).

Definition percentage_body (total_amount : F) : M F (dict F) unit :=
  percentage <- getitem "share_percentage" (PInt 0) ;;
  q <- lift (py_truediv percentage (PInt 100)) ;;
  a <- lift (py_mul q (PFloat total_amount)) ;;
  v <- lift (py_round2 a) ;;
  setitem "share_amount" v.

Definition ratio_body (total_amount : F) (total_ratio : pyval F) : M F (dict F) unit :=
  ratio <- getitem "share_ratio" (PInt 1) ;;
  q <- lift (py_truediv ratio total_ratio) ;;
  a <- lift (py_mul q (PInt 100)) ;;
  v <- lift (py_round2 a) ;;
  setitem "share_percentage" v ;;;
  q <- lift (py_truediv ratio total_ratio) ;;
  a <- lift (py_mul q (PFloat total_amount)) ;;
  v <- lift (py_round2 a) ;;
  setitem "share_amount" v.

(** the [if / elif / elif] that computes the shares *)
Definition compute_shares (total_amount : F) (split_method : string)
    (num_participants : pyval F) : M F (store F) unit :=
  if String.eqb split_method "equal" then
    share_amount <- lift (py_truediv (PFloat total_amount) num_participants) ;;
    for_each (equal_body share_amount num_participants)
  else if String.eqb split_method "percentage" then
    percentages <- gen "share_percentage" (PInt 0) ;;
    total_percentage <- lift (py_sum percentages) ;;
    off <- lift (differs total_percentage (PInt 100)) ;;
    if (off : bool) then raise (ValueError (percentage_message total_percentage))
    else for_each (percentage_body total_amount)
  else if String.eqb split_method "ratio" then
    ratios <- gen "share_ratio" (PInt 1) ;;
    total_ratio <- lift (py_sum ratios) ;;
    for_each (ratio_body total_amount total_ratio)
  else ret tt.

(** the body of the last loop *)
Definition owe : M F (dict F) unit :=
  amount_paid <- getitem "amount_paid" (PInt 0) ;;
  share_amount <- getitem "share_amount" (PInt 0) ;;
  d <- lift (py_sub share_amount amount_paid) ;;
  v <- lift (py_round2 d) ;;
  setitem "amount_owed" v.

(** "Calculate who owes what" *)
Definition settle (total_amount : F) : M F (store F) unit :=
  paid <- gen "amount_paid" (PInt 0) ;;
  total_paid <- lift (py_sum paid) ;;
  off <- lift (differs total_paid (PFloat total_amount)) ;;
  if (off : bool) then raise (ValueError (total_paid_message total_paid total_amount))
  else for_each owe.

(** [calculate_split_amounts(total_amount, participants, split_method)].
    The result pairs the outcome with the participants as the call
    leaves them; on [Ret] the list returned is that same list. *)
Definition calculate_split_amounts (total_amount : F) (participants : store F)
    (split_method : string) : outcome F unit * store F :=
  (num_participants <- len ;;
   compute_shares total_amount split_method num_participants ;;;
   settle total_amount) participants.

(** ** Vocabulary for the statements below *)

(** what the [equal] branch writes into one participant *)
Definition equal_update (share pct : pyval F) (p : dict F) : dict F :=
  <["share_ratio" := PInt 1]> (<["share_percentage" := pct]> (<["share_amount" := share]> p)).

Definition equal_share (total_amount : F) (n : Z) : pyval F :=
  PFloat (fround2 (fdiv total_amount (of_Z n))).

Definition equal_percentage (n : Z) : pyval F :=
  PFloat (fround2 (fdiv (of_Z 100) (of_Z n))).

(** the values the generator expressions read *)
Definition paid_values (ps : store F) : list (pyval F) :=
  map (fun p => get p "amount_paid" (PInt 0)) ps.
Definition owed_values (ps : store F) : list (pyval F) :=
  map (fun p => get p "amount_owed" (PInt 0)) ps.
Definition percentage_values (ps : store F) : list (pyval F) :=
  map (fun p => get p "share_percentage" (PInt 0)) ps.
Definition ratio_values (ps : store F) : list (pyval F) :=
  map (fun p => get p "share_ratio" (PInt 1)) ps.

(** a field is populated when the key is there and holds a number *)
Definition populated (p : dict F) (key : string) : bool :=
  match p !! key with
  | Some v => is_number v
  | None => false
  end.

Definition methods : list string := ["equal"; "percentage"; "ratio"].


(** what the share computation of a method leaves in a participant [p] *)
Definition share_written (split_method : string) (p p1 : dict F) : Prop :=
  (split_method = "equal" /\
     exists x y, p1 = equal_update (PFloat x) (PFloat y) p) \/
  (split_method = "percentage" /\
     exists x, p1 = <["share_amount" := PFloat x]> p) \/
  (split_method = "ratio" /\
     exists x y, p1 = <["share_amount" := PFloat y]> (<["share_percentage" := PFloat x]> p)).

End Split.

(** The dictionary [SplitParticipant.model_dump()] yields for a
    participant sent with a name and a payment only: the optional fields
    are present and hold [None]. *)
Definition dumped (name : string) (amount_paid : float) : dict float :=
  {[ "name" := PStr name; "phone_number" := PNone; "share_percentage" := PNone;
     "share_ratio" := PNone; "amount_paid" := PFloat amount_paid;
     "amount_owed" := PFloat 0%float ]}.

(** ** Reading exact results *)







(** the keys the allocation writes *)
Definition written_keys : list string :=
  ["share_amount"; "share_percentage"; "share_ratio"; "amount_owed"].

(* ===================================================================== *)
(** * Proofs *)
(* ===================================================================== *)

(** ** Properties of the split allocation *)

Section SplitFacts.
Context {F : Type} `{PyFloat F}.
Local Open Scope py_scope.

Implicit Types (p : dict F) (ps : store F) (v : pyval F).

(** ** Loops *)

Lemma for_each_length (body : M F (dict F) unit) ps :
  length (for_each body ps).2 = length ps.
Proof.
  induction ps as [|p rest IH]; simpl; [done|].
  destruct (body p) as [[[]|e] p']; simpl; [|done].
  destruct (for_each body rest) as [o rest']; simpl in *. by rewrite IH.
Qed.

(** A body that returns on every participant rewrites all of them. *)
Lemma for_each_total (body : M F (dict F) unit) (f : dict F -> dict F) ps :
  (forall p, p ∈ ps -> body p = (Ret tt, f p)) ->
  for_each body ps = (Ret tt, map f ps).
Proof.
  induction ps as [|p rest IH]; intros Hb; simpl; [done|].
  rewrite Hb by apply list_elem_of_here.
  rewrite IH; [done|]. intros q Hq. apply Hb. by apply list_elem_of_further.
Qed.

(** A loop returns only if its body returned on every participant, and
    then each dictionary is what the body made of it. *)
Lemma for_each_ret_inv (body : M F (dict F) unit) ps ps' :
  for_each body ps = (Ret tt, ps') ->
  ps' = map (fun p => (body p).2) ps /\
  forall p, p ∈ ps -> (body p).1 = Ret tt.
Proof.
  revert ps'. induction ps as [|p rest IH]; intros ps'; simpl.
  - intros [= <-]. split; [done|]. intros p Hp. by apply elem_of_nil in Hp.
  - destruct (body p) as [[[]|e] p'] eqn:Hp; [|done].
    destruct (for_each body rest) as [o rest'] eqn:Hr.
    intros [= -> <-]. destruct (IH _ eq_refl) as [-> Hall].
    split; [done|].
    intros q [->|Hq]%elem_of_cons; [by rewrite Hp|by apply Hall].
Qed.

(** ** The three share computations, one participant at a time *)

Lemma compute_shares_equal total_amount ps :
  ps <> [] ->
  let n := Z.of_nat (length ps) in
  compute_shares total_amount "equal" (PInt n) ps
  = (Ret tt, map (equal_update (equal_share total_amount n) (equal_percentage n)) ps).
Proof.
  intros Hne n. unfold compute_shares. simpl String.eqb. cbv iota.
  assert (Hn : (n =? 0) = false).
  { apply Z.eqb_neq. subst n. destruct ps; [done|]. simpl. lia. }
  unfold bind at 1. cbn [py_truediv lift]. rewrite Hn. cbn [ret].
  apply for_each_total. intros p _.
  unfold equal_body, bind, lift, setitem, ret. cbn [py_round2 py_truediv].
  by rewrite Hn.
Qed.

(** ** Settlement *)

Lemma settle_unfold total_amount ps :
  settle total_amount ps =
  match py_sum (paid_values ps) with
  | inl e => (Raise e, ps)
  | inr total_paid =>
      match differs total_paid (PFloat total_amount) with
      | inl e => (Raise e, ps)
      | inr true => (Raise (ValueError (total_paid_message total_paid total_amount)), ps)
      | inr false => for_each owe ps
      end
  end.
Proof.
  unfold settle, bind, gen, lift, raise, ret, paid_values.
  destruct (py_sum _) as [e|tp]; [done|].
  destruct (differs _ _) as [e|[]]; done.
Qed.

Lemma calculate_unfold total_amount ps split_method :
  calculate_split_amounts total_amount ps split_method =
  match compute_shares total_amount split_method (PInt (Z.of_nat (length ps))) ps with
  | (Ret _, ps1) => settle total_amount ps1
  | (Raise e, ps1) => (Raise e, ps1)
  end.
Proof. reflexivity. Qed.

(** What the last loop writes when it returns. *)
Lemma owe_ret_inv p p' :
  owe p = (Ret tt, p') ->
  exists d v,
    py_sub (get p "share_amount" (PInt 0)) (get p "amount_paid" (PInt 0)) = inr d /\
    py_round2 d = inr v /\ p' = <["amount_owed" := v]> p.
Proof.
  unfold owe, bind, getitem, lift, setitem, raise, ret.
  destruct (py_sub _ _) as [e|d]; [done|].
  destruct (py_round2 d) as [e|v] eqn:Hv; [done|].
  intros [= <-]. by exists d, v.
Qed.

Lemma owe_unfold p :
  owe p =
  match py_sub (get p "share_amount" (PInt 0)) (get p "amount_paid" (PInt 0)) with
  | inl e => (Raise e, p)
  | inr d =>
      match py_round2 d with
      | inl e => (Raise e, p)
      | inr v => (Ret tt, <["amount_owed" := v]> p)
      end
  end.
Proof.
  unfold owe, bind, getitem, lift, setitem, raise, ret.
  destruct (py_sub _ _) as [e|d]; [done|].
  by destruct (py_round2 d) as [e|v].
Qed.

Lemma owe_cases p :
  (exists e, owe p = (Raise e, p)) \/
  (exists d v,
      py_sub (get p "share_amount" (PInt 0)) (get p "amount_paid" (PInt 0)) = inr d /\
      py_round2 d = inr v /\ owe p = (Ret tt, <["amount_owed" := v]> p)).
Proof.
  unfold owe, bind, getitem, lift, setitem, raise, ret.
  destruct (py_sub _ _) as [e|d]; [left; by exists e|].
  destruct (py_round2 d) as [e|v] eqn:Hv; [left; by exists e|].
  right. by exists d, v.
Qed.

(** The last loop writes the key [amount_owed] and no other. *)
Lemma for_each_owe_keeps ps :
  Forall2 (fun p p' => forall k, k <> "amount_owed" -> p' !! k = p !! k)
          ps (for_each owe ps).2.
Proof.
  induction ps as [|p rest IH]; simpl; [constructor|].
  destruct (owe_cases p) as [[e ->]|(d & v & _ & _ & ->)]; simpl.
  - constructor; [done|]. apply Forall2_same_length_lookup_2; [done|].
    intros i x y Hx Hy k _. congruence.
  - destruct (for_each owe rest) as [o rest']; simpl in *.
    constructor; [|done]. intros k Hk. by rewrite lookup_insert_ne.
Qed.

Lemma settle_keeps total_amount ps :
  Forall2 (fun p p' => forall k, k <> "amount_owed" -> p' !! k = p !! k)
          ps (settle total_amount ps).2.
Proof.
  rewrite settle_unfold.
  assert (Hid : Forall2 (fun p p' : dict F =>
                  forall k, k <> "amount_owed" -> p' !! k = p !! k) ps ps).
  { apply Forall2_same_length_lookup_2; [done|].
    intros i x y Hx Hy k _. congruence. }
  destruct (py_sum _) as [e|tp]; [done|].
  destruct (differs _ _) as [e|[]]; [done|done|].
  apply for_each_owe_keeps.
Qed.

Lemma get_equal_update share pct p k dflt :
  k <> "share_amount" -> k <> "share_percentage" -> k <> "share_ratio" ->
  get (equal_update share pct p) k dflt = get p k dflt.
Proof.
  intros. unfold get, equal_update. by rewrite !lookup_insert_ne.
Qed.

(** ** Arithmetic results *)

Lemma py_truediv_float a b q :
  py_truediv a b = inr q -> exists x, q = PFloat x.
Proof.
  destruct a, b; simpl; try done;
    repeat match goal with |- context [if ?c then _ else _] => destruct c end;
    intros [= <-]; eauto.
Qed.

Lemma py_mul_float x b a :
  py_mul (PFloat x) b = inr a -> exists y, a = PFloat y.
Proof. destruct b; simpl; try done; intros [= <-]; eauto. Qed.

Lemma py_sub_float x b d :
  py_sub (PFloat x) b = inr d -> exists y, d = PFloat y.
Proof. destruct b; simpl; try done; intros [= <-]; eauto. Qed.

Lemma py_round2_number a v : py_round2 a = inr v -> is_number v = true.
Proof. destruct a; simpl; try done; by intros [= <-]. Qed.

(** ** What the share loops write when they return *)

Lemma percentage_body_ret total_amount p p' :
  percentage_body total_amount p = (Ret tt, p') ->
  exists q x,
    py_truediv (get p "share_percentage" (PInt 0)) (PInt 100) = inr (PFloat q) /\
    py_mul (PFloat q) (PFloat total_amount) = inr (PFloat x) /\
    p' = <["share_amount" := PFloat (fround2 x)]> p.
Proof.
  unfold percentage_body, bind, getitem, lift, setitem, raise, ret.
  destruct (py_truediv _ _) as [e|q] eqn:Hq; [done|].
  destruct (py_truediv_float _ _ _ Hq) as [q' ->].
  destruct (py_mul _ _) as [e|a] eqn:Ha; [done|].
  destruct (py_mul_float _ _ _ Ha) as [x ->]. cbn [py_round2].
  intros [= <-]. by exists q', x.
Qed.

Lemma ratio_body_ret total_amount total_ratio p p' :
  ratio_body total_amount total_ratio p = (Ret tt, p') ->
  exists q x y,
    py_truediv (get p "share_ratio" (PInt 1)) total_ratio = inr (PFloat q) /\
    py_mul (PFloat q) (PInt 100) = inr (PFloat x) /\
    py_mul (PFloat q) (PFloat total_amount) = inr (PFloat y) /\
    p' = <["share_amount" := PFloat (fround2 y)]>
           (<["share_percentage" := PFloat (fround2 x)]> p).
Proof.
  unfold ratio_body, bind, getitem, lift, setitem, raise, ret.
  destruct (py_truediv _ _) as [e|q] eqn:Hq; [done|].
  destruct (py_truediv_float _ _ _ Hq) as [q' ->].
  destruct (py_mul _ (PInt 100)) as [e|a] eqn:Ha; [done|].
  destruct (py_mul_float _ _ _ Ha) as [x ->]. cbn [py_round2].
  destruct (py_mul _ (PFloat total_amount)) as [e|b] eqn:Hb; [done|].
  destruct (py_mul_float _ _ _ Hb) as [y ->]. cbn [py_round2].
  intros [= <-]. by exists q', x, y.
Qed.

(** ** Which exceptions can be raised where

    Arithmetic raises [TypeError] or [ZeroDivisionError] only; the two
    [ValueError]s come from the two explicit checks. *)

Definition arith_error (e : exn F) : Prop := e = TypeError \/ e = ZeroDivisionError.

Definition arith_only {A} (r : res F A) : Prop :=
  forall e, r = inl e -> arith_error e.

Definition raises_arith_only {S A} (m : M F S A) : Prop :=
  forall st e st', m st = (Raise e, st') -> arith_error e.

Lemma arith_arith_only fi ff a b : arith_only (arith fi ff a b).
Proof. intros e. destruct a, b; simpl; intros [= <-]; by left. Qed.

Lemma py_truediv_arith_only a b : arith_only (py_truediv a b).
Proof.
  intros e. destruct a, b; simpl;
    repeat match goal with |- context [if ?c then _ else _] => destruct c end;
    intros [= <-]; (by left) || by right.
Qed.

Lemma py_abs_arith_only a : arith_only (py_abs a).
Proof. intros e. destruct a; simpl; intros [= <-]; by left. Qed.

Lemma py_gt_arith_only a t : arith_only (py_gt a t).
Proof. intros e. destruct a; simpl; intros [= <-]; by left. Qed.

Lemma py_round2_arith_only a : arith_only (py_round2 a).
Proof. intros e. destruct a; simpl; intros [= <-]; by left. Qed.

Lemma sum_from_arith_only acc vs : arith_only (sum_from acc vs).
Proof.
  revert acc. induction vs as [|v vs IH]; intros acc e; simpl; [done|].
  destruct (py_add acc v) as [e'|acc'] eqn:Ha.
  - intros [= <-]. by eapply arith_arith_only.
  - apply IH.
Qed.

Lemma differs_arith_only a b : arith_only (differs a b).
Proof.
  intros e. unfold differs.
  destruct (py_sub a b) as [e'|d] eqn:Hd.
  { intros [= <-]. by eapply arith_arith_only. }
  destruct (py_abs d) as [e'|m] eqn:Hm.
  { intros [= <-]. by eapply py_abs_arith_only. }
  apply py_gt_arith_only.
Qed.

Lemma raises_bind {S A B} (m : M F S A) (k : A -> M F S B) :
  raises_arith_only m -> (forall a, raises_arith_only (k a)) ->
  raises_arith_only (bind m k).
Proof.
  intros Hm Hk st e st'. unfold bind.
  destruct (m st) as [[a|e'] st1] eqn:Hst.
  - apply Hk.
  - intros [= <- <-]. by eapply Hm.
Qed.

Lemma raises_lift {S A} (r : res F A) :
  arith_only r -> raises_arith_only (lift (S:=S) r).
Proof.
  intros Hr st e st'. destruct r as [e'|a]; simpl; [|done].
  intros [= <- <-]. by apply Hr.
Qed.

Lemma raises_getitem key dflt : raises_arith_only (getitem key dflt).
Proof. by intros st e st'. Qed.

Lemma raises_setitem key v : raises_arith_only (setitem key v).
Proof. by intros st e st'. Qed.

Lemma raises_for_each (body : M F (dict F) unit) :
  raises_arith_only body -> raises_arith_only (for_each body).
Proof.
  intros Hb ps. induction ps as [|p rest IH]; intros e after; simpl; [done|].
  destruct (body p) as [[[]|e'] p'] eqn:Hp.
  - destruct (for_each body rest) as [o rest'] eqn:Hr.
    intros [= -> <-]. by eapply IH.
  - intros [= <- <-]. by eapply Hb.
Qed.

Ltac raises :=
  repeat first
    [ apply raises_for_each
    | apply raises_bind; [|intros ?]
    | apply raises_lift
    | apply raises_getitem
    | apply raises_setitem
    | apply arith_arith_only
    | apply py_truediv_arith_only
    | apply py_round2_arith_only
    | apply sum_from_arith_only
    | apply differs_arith_only ].

Lemma raises_owe : raises_arith_only owe.
Proof. unfold owe, py_sub. raises. Qed.

Lemma raises_equal_body share n : raises_arith_only (equal_body share n).
Proof. unfold equal_body. raises. Qed.

Lemma raises_percentage_body total_amount :
  raises_arith_only (percentage_body total_amount).
Proof. unfold percentage_body, py_mul. raises. Qed.

Lemma raises_ratio_body total_amount total_ratio :
  raises_arith_only (ratio_body total_amount total_ratio).
Proof. unfold ratio_body, py_mul. raises. Qed.

Lemma value_error_not_arith msg : ~ arith_error (ValueError msg).
Proof. by intros [|]. Qed.

Lemma no_value_error {S A} (m : M F S A) st msg st' :
  raises_arith_only m -> m st <> (Raise (ValueError msg), st').
Proof. intros Hm Hr. eapply value_error_not_arith, Hm, Hr. Qed.

Lemma res_no_value_error {A} (r : res F A) msg :
  arith_only r -> r <> inl (ValueError msg).
Proof. intros Hr He. eapply value_error_not_arith, Hr, He. Qed.

(** When the share computation raises [ValueError] it is the
    percentage check, and nothing has been written. *)
Lemma compute_shares_value_error total_amount split_method n ps msg after :
  compute_shares total_amount split_method n ps = (Raise (ValueError msg), after) ->
  split_method = "percentage" /\ after = ps /\
  exists total_percentage,
    py_sum (percentage_values ps) = inr total_percentage /\
    differs total_percentage (PInt 100) = inr true /\
    msg = percentage_message total_percentage.
Proof.
  unfold compute_shares.
  destruct (String.eqb_spec split_method "equal") as [->|_].
  { intros Hr. exfalso. revert Hr. apply no_value_error.
    apply raises_bind; [raises|]. intros ?. apply raises_for_each, raises_equal_body. }
  destruct (String.eqb_spec split_method "percentage") as [->|_].
  { unfold bind at 1, gen. unfold bind at 1.
    fold (percentage_values ps).
    destruct (py_sum (percentage_values ps)) as [e|tp] eqn:Hs; cbn [lift raise ret].
    { intros [= -> <-]. exfalso. revert Hs. apply res_no_value_error, sum_from_arith_only. }
    unfold bind at 1.
    destruct (differs tp (PInt 100)) as [e|[]] eqn:Hd; cbn [lift raise ret].
    - intros [= -> <-]. exfalso. revert Hd. apply res_no_value_error, differs_arith_only.
    - intros [= <- <-]. split; [done|]. split; [done|]. by exists tp.
    - intros Hr. exfalso. revert Hr.
      apply no_value_error, raises_for_each, raises_percentage_body. }
  destruct (String.eqb_spec split_method "ratio") as [->|_].
  { intros Hr. exfalso. revert Hr. apply no_value_error.
    apply raises_bind; [by intros ? ? ?|]. intros ?.
    apply raises_bind; [raises|]. intros ?. apply raises_for_each, raises_ratio_body. }
  done.
Qed.

(** The call returns exactly when the shares were computed, the
    payments add up and the last loop returned. *)
Lemma calculate_ret_inv total_amount ps split_method after :
  calculate_split_amounts total_amount ps split_method = (Ret tt, after) ->
  exists ps1 total_paid,
    compute_shares total_amount split_method (PInt (Z.of_nat (length ps))) ps
      = (Ret tt, ps1) /\
    py_sum (paid_values ps1) = inr total_paid /\
    differs total_paid (PFloat total_amount) = inr false /\
    for_each owe ps1 = (Ret tt, after).
Proof.
  rewrite calculate_unfold.
  destruct (compute_shares _ _ _ _) as [[[]|e] ps1]; [|done].
  rewrite settle_unfold.
  destruct (py_sum _) as [e|tp] eqn:Hs; [done|].
  destruct (differs _ _) as [e|[]] eqn:Hd; [done|done|].
  intros Hr. by exists ps1, tp.
Qed.

(** The call raises the payment [ValueError] exactly when the shares
    were computed and the payments do not add up; the participants are
    then as the share computation left them. *)
Lemma calculate_paid_error_inv total_amount ps split_method total_paid after :
  calculate_split_amounts total_amount ps split_method
    = (Raise (ValueError (total_paid_message total_paid total_amount)), after) ->
  compute_shares total_amount split_method (PInt (Z.of_nat (length ps))) ps
    = (Ret tt, after) /\
  py_sum (paid_values after) = inr total_paid /\
  differs total_paid (PFloat total_amount) = inr true.
Proof.
  rewrite calculate_unfold.
  destruct (compute_shares _ _ _ _) as [[[]|e] ps1] eqn:Hc.
  - rewrite settle_unfold.
    destruct (py_sum _) as [e|tp] eqn:Hs.
    { intros [= -> <-]. exfalso. revert Hs. apply res_no_value_error, sum_from_arith_only. }
    destruct (differs _ _) as [e|[]] eqn:Hd.
    + intros [= -> <-]. exfalso. revert Hd. apply res_no_value_error, differs_arith_only.
    + intros [= -> <-]. done.
    + intros Hr. exfalso. revert Hr. apply no_value_error, raises_for_each, raises_owe.
  - intros [= -> <-].
    apply compute_shares_value_error in Hc as (_ & _ & tp & _ & _ & Hm).
    discriminate Hm.
Qed.

Lemma compute_shares_equal_unfold total_amount n ps :
  compute_shares total_amount "equal" n ps =
  match py_truediv (PFloat total_amount) n with
  | inl e => (Raise e, ps)
  | inr share_amount => for_each (equal_body share_amount n) ps
  end.
Proof.
  unfold compute_shares. change (String.eqb "equal" "equal") with true. cbv iota.
  unfold bind, lift, raise, ret. by destruct (py_truediv _ _).
Qed.

Lemma compute_shares_percentage_unfold total_amount n ps :
  compute_shares total_amount "percentage" n ps =
  match py_sum (percentage_values ps) with
  | inl e => (Raise e, ps)
  | inr total_percentage =>
      match differs total_percentage (PInt 100) with
      | inl e => (Raise e, ps)
      | inr true => (Raise (ValueError (percentage_message total_percentage)), ps)
      | inr false => for_each (percentage_body total_amount) ps
      end
  end.
Proof.
  unfold compute_shares.
  change (String.eqb "percentage" "equal") with false.
  change (String.eqb "percentage" "percentage") with true. cbv iota.
  unfold bind, gen, lift, raise, ret. fold (percentage_values ps).
  destruct (py_sum _) as [e|tp]; [done|]. by destruct (differs _ _) as [e|[]].
Qed.

Lemma compute_shares_ratio_unfold total_amount n ps :
  compute_shares total_amount "ratio" n ps =
  match py_sum (ratio_values ps) with
  | inl e => (Raise e, ps)
  | inr total_ratio => for_each (ratio_body total_amount total_ratio) ps
  end.
Proof.
  unfold compute_shares.
  change (String.eqb "ratio" "equal") with false.
  change (String.eqb "ratio" "percentage") with false.
  change (String.eqb "ratio" "ratio") with true. cbv iota.
  unfold bind, gen, lift, raise, ret. fold (ratio_values ps).
  by destruct (py_sum _) as [e|tp].
Qed.

Lemma for_each_ret_Forall2 (body : M F (dict F) unit) ps after :
  for_each body ps = (Ret tt, after) ->
  Forall2 (fun p p' => body p = (Ret tt, p')) ps after.
Proof.
  revert after. induction ps as [|p rest IH]; intros after; simpl.
  - intros [= <-]. constructor.
  - destruct (body p) as [[[]|e] p'] eqn:Hp; [|done].
    destruct (for_each body rest) as [o rest'] eqn:Hr.
    intros [= -> <-]. constructor; [done|]. by apply IH.
Qed.

Lemma equal_body_ret share n p p' :
  equal_body (PFloat share) n p = (Ret tt, p') ->
  exists y, p' = equal_update (PFloat (fround2 share)) (PFloat y) p.
Proof.
  unfold equal_body, bind, lift, setitem, raise, ret. cbn [py_round2].
  destruct (py_truediv (PInt 100) n) as [e|q] eqn:Hq; [done|].
  destruct (py_truediv_float _ _ _ Hq) as [y ->]. cbn [py_round2].
  intros [= <-]. by exists (fround2 y).
Qed.

(** When the share computation returns, every participant holds a
    [float] share, written by the branch of the method. *)
Lemma compute_shares_ret total_amount split_method n ps ps1 :
  In split_method methods ->
  compute_shares total_amount split_method n ps = (Ret tt, ps1) ->
  Forall2 (share_written split_method) ps ps1.
Proof.
  intros [<-|[<-|[<-|[]]]].
  - rewrite compute_shares_equal_unfold.
    destruct (py_truediv (PFloat total_amount) n) as [e|share] eqn:Hs; [done|].
    destruct (py_truediv_float _ _ _ Hs) as [x ->].
    intros Hr%for_each_ret_Forall2.
    eapply Forall2_impl; [exact Hr|]. intros p p' [y ->]%equal_body_ret.
    left. split; [done|]. by exists (fround2 x), y.
  - rewrite compute_shares_percentage_unfold.
    destruct (py_sum _) as [e|tp]; [done|].
    destruct (differs _ _) as [e|[]]; [done|done|].
    intros Hr%for_each_ret_Forall2.
    eapply Forall2_impl; [exact Hr|].
    intros p p' (q & x & _ & _ & ->)%percentage_body_ret.
    right; left. split; [done|]. by exists (fround2 x).
  - rewrite compute_shares_ratio_unfold.
    destruct (py_sum _) as [e|tr]; [done|].
    intros Hr%for_each_ret_Forall2.
    eapply Forall2_impl; [exact Hr|].
    intros p p' (q & x & y & _ & _ & _ & ->)%ratio_body_ret.
    right; right. split; [done|]. by exists (fround2 x), (fround2 y).
Qed.

Lemma share_written_share_amount split_method p p1 :
  share_written split_method p p1 ->
  exists x, p1 !! "share_amount" = Some (PFloat x).
Proof.
  intros [(_ & x & y & ->)|[(_ & x & ->)|(_ & x & y & ->)]].
  - exists x. unfold equal_update.
    by rewrite lookup_insert_ne, lookup_insert_ne, lookup_insert_eq.
  - exists x. by rewrite lookup_insert_eq.
  - exists y. by rewrite lookup_insert_eq.
Qed.


End SplitFacts.

(** ** The [equal] method *)

Lemma equal_shares_after {F : Type} `{PyFloat F} (total_amount : F) (participants : store F) :
  participants <> [] ->
  let n := Z.of_nat (length participants) in
  Forall2 (fun p p' => forall k, k <> "amount_owed" ->
             p' !! k = equal_update (equal_share total_amount n) (equal_percentage n) p !! k)
          participants (calculate_split_amounts total_amount participants "equal").2.
Proof.
  intros Hne n. rewrite calculate_unfold, compute_shares_equal by done. fold n.
  pose proof (settle_keeps total_amount
    (map (equal_update (equal_share total_amount n) (equal_percentage n)) participants)) as Hk.
  apply Forall2_fmap_l in Hk. exact Hk.
Qed.

(** three participants on binary64 whose payments are known *)
Lemma equal_of_three (p0 p1 p2 : dict float) (a0 a1 a2 total_paid : pyval float)
    (w0 w1 w2 : float) :
  get p0 "amount_paid" (PInt 0) = a0 ->
  get p1 "amount_paid" (PInt 0) = a1 ->
  get p2 "amount_paid" (PInt 0) = a2 ->
  py_sum [a0; a1; a2] = inr total_paid ->
  differs total_paid (PFloat 300%float) = inr false ->
  py_sub (PFloat 100%float) a0 = inr (PFloat w0) ->
  py_sub (PFloat 100%float) a1 = inr (PFloat w1) ->
  py_sub (PFloat 100%float) a2 = inr (PFloat w2) ->
  let q := equal_update (PFloat 100%float) (equal_percentage 3) in
  calculate_split_amounts 300%float [p0; p1; p2] "equal"
  = (Ret tt, [ <["amount_owed" := PFloat (B64.round2 w0)]> (q p0);
               <["amount_owed" := PFloat (B64.round2 w1)]> (q p1);
               <["amount_owed" := PFloat (B64.round2 w2)]> (q p2) ]).
Proof.
  intros H0 H1 H2 Hsum Hd Hw0 Hw1 Hw2 q.
  assert (Hsh : equal_share 300%float 3 = PFloat 100%float) by (vm_compute; reflexivity).
  rewrite calculate_unfold, compute_shares_equal by done.
  change (Z.of_nat (length [p0; p1; p2])) with 3. rewrite Hsh. fold q.
  rewrite settle_unfold. unfold paid_values. cbn [map]. unfold q.
  rewrite !get_equal_update by done. rewrite H0, H1, H2, Hsum, Hd.
  assert (Howe : forall p a w,
            get p "amount_paid" (PInt 0) = a ->
            py_sub (PFloat 100%float) a = inr (PFloat w) ->
            owe (equal_update (PFloat 100%float) (equal_percentage 3) p)
            = (Ret tt, <["amount_owed" := PFloat (B64.round2 w)]>
                        (equal_update (PFloat 100%float) (equal_percentage 3) p))).
  { intros p a w Ha Hsub. rewrite owe_unfold.
    rewrite (get_equal_update _ _ _ "amount_paid") by done.
    replace (get (equal_update (PFloat 100%float) (equal_percentage 3) p) "share_amount" (PInt 0))
      with (PFloat (F:=float) 100%float)
      by (unfold get, equal_update;
          by rewrite lookup_insert_ne, lookup_insert_ne, lookup_insert_eq).
    rewrite Ha, Hsub. reflexivity. }
  cbn [for_each].
  rewrite (Howe p0 a0 w0 H0 Hw0), (Howe p1 a1 w1 H1 Hw1), (Howe p2 a2 w2 H2 Hw2).
  reflexivity.
Qed.

(** The worked example on binary64: three participants, one of whom paid
    300 and the others nothing. *)
Lemma equal_300_by_3 (payer : nat) (p0 p1 p2 : dict float) :
  let participants := [p0; p1; p2] in
  (forall i p, participants !! i = Some p ->
     p !! "amount_paid" = if decide (i = payer) then Some (PFloat 300%float) else None) ->
  (payer < 3)%nat ->
  exists after,
    calculate_split_amounts 300%float participants "equal" = (Ret tt, after) /\
    (forall i p, after !! i = Some p ->
       p !! "share_amount" = Some (PFloat 100%float) /\
       p !! "amount_owed" =
         Some (PFloat (if decide (i = payer) then (-200)%float else 100%float))) /\
    py_sum (owed_values after) = inr (PFloat 0%float).
Proof.
  intros participants Hpaid Hpayer.
  assert (Hget : forall i p, participants !! i = Some p ->
            get p "amount_paid" (PInt 0)
            = if decide (i = payer) then PFloat 300%float else PInt 0).
  { intros i p Hi. unfold get. rewrite (Hpaid i p Hi). by destruct (decide _). }
  pose proof (Hget 0%nat p0 eq_refl) as H0.
  pose proof (Hget 1%nat p1 eq_refl) as H1.
  pose proof (Hget 2%nat p2 eq_refl) as H2.
  assert (Hr200 : B64.round2 (-200)%float = (-200)%float) by (vm_compute; reflexivity).
  assert (Hr100 : B64.round2 100%float = 100%float) by (vm_compute; reflexivity).
  assert (Hshare : forall (p : dict float) v,
            (<["amount_owed" := v]>
               (equal_update (PFloat 100%float) (equal_percentage 3) p)) !! "share_amount"
            = Some (PFloat 100%float)).
  { intros p v. unfold equal_update.
    by rewrite lookup_insert_ne, lookup_insert_ne, lookup_insert_ne, lookup_insert_eq. }
  assert (Hcase : payer = 0%nat \/ payer = 1%nat \/ payer = 2%nat) by lia.
  destruct Hcase as [-> | [-> | ->]];
    repeat match goal with
           | H : context [decide (?a = ?b)] |- _ =>
               destruct (decide (a = b)); [|try lia]; try lia
           end.
  all: eexists; split;
    [ first
        [ solve [ eapply (equal_of_three p0 p1 p2 _ _ _ (PFloat 300%float)
                            (-200)%float 100%float 100%float H0 H1 H2);
                  vm_compute; reflexivity ]
        | solve [ eapply (equal_of_three p0 p1 p2 _ _ _ (PFloat 300%float)
                            100%float (-200)%float 100%float H0 H1 H2);
                  vm_compute; reflexivity ]
        | solve [ eapply (equal_of_three p0 p1 p2 _ _ _ (PFloat 300%float)
                            100%float 100%float (-200)%float H0 H1 H2);
                  vm_compute; reflexivity ] ] | ].
  all: split;
    [ intros [|[|[|i]]] p; cbn [lookup list_lookup]; intros [= <-];
      (split; [apply Hshare|]); rewrite lookup_insert_eq;
      destruct (decide _); try lia; rewrite ?Hr200, ?Hr100; reflexivity
    | unfold owed_values, get; cbn [map]; rewrite !lookup_insert_eq;
      rewrite ?Hr200, ?Hr100; vm_compute; reflexivity ].
Qed.

(** C2.  Under the [equal] method with [n >= 1] participants every
    participant is left with [share_amount = round(total_amount / n, 2)],
    [share_percentage = round(100 / n, 2)] and [share_ratio = 1]; and on
    binary64, for a total of 300 and three participants of whom exactly one
    paid 300 and the others have no [amount_paid], the call returns with
    every [share_amount] equal to 100.0, the payer's [amount_owed] equal to
    -200.0, the two others' equal to 100.0, and [sum] of the three
    [amount_owed] equal to 0.0. *)
Theorem equal_method_shares :
  (forall (F : Type) (ops : PyFloat F) (total_amount : F) (participants : store F),
     participants <> [] ->
     let n := Z.of_nat (length participants) in
     let after := (calculate_split_amounts total_amount participants "equal").2 in
     length after = length participants /\
     forall p, p ∈ after ->
       p !! "share_amount" = Some (PFloat (fround2 (fdiv total_amount (of_Z n)))) /\
       p !! "share_percentage" = Some (PFloat (fround2 (fdiv (of_Z 100) (of_Z n)))) /\
       p !! "share_ratio" = Some (PInt 1)) /\
  (forall (payer : nat) (p0 p1 p2 : dict float),
     (forall i p, [p0; p1; p2] !! i = Some p ->
        p !! "amount_paid" = if decide (i = payer) then Some (PFloat 300%float) else None) ->
     (payer < 3)%nat ->
     exists after,
       calculate_split_amounts 300%float [p0; p1; p2] "equal" = (Ret tt, after) /\
       (forall i p, after !! i = Some p ->
          p !! "share_amount" = Some (PFloat 100%float) /\
          p !! "amount_owed" =
            Some (PFloat (if decide (i = payer) then (-200)%float else 100%float))) /\
       py_sum (owed_values after) = inr (PFloat 0%float)).
Proof.
  split.
  - intros F ops total_amount participants Hne n after.
    pose proof (equal_shares_after total_amount participants Hne) as Hall.
    fold n after in Hall. split.
    + symmetry. by eapply Forall2_length.
    + intros p' Hp'. apply list_elem_of_lookup in Hp' as [i Hi].
      destruct (Forall2_lookup_r _ _ _ _ _ Hall Hi) as (p & _ & Hk).
      rewrite !Hk by done. unfold equal_update, equal_share, equal_percentage.
      by rewrite lookup_insert_ne, lookup_insert_ne, lookup_insert_eq,
                 lookup_insert_ne, lookup_insert_eq, lookup_insert_eq.
  - intros payer p0 p1 p2. apply equal_300_by_3.
Qed.

(** The example of the specification: A paid 300, B and C nothing. *)
Lemma equal_method_shares_witness :
  let A : dict float := {[ "name" := PStr "A"; "amount_paid" := PFloat 300%float ]} in
  let B : dict float := {[ "name" := PStr "B" ]} in
  let C : dict float := {[ "name" := PStr "C" ]} in
  [A; B; C] <> [] /\
  (forall p, p ∈ (calculate_split_amounts 300%float [A; B; C] "equal").2 ->
     p !! "share_amount" = Some (PFloat 100%float)) /\
  exists after,
    calculate_split_amounts 300%float [A; B; C] "equal" = (Ret tt, after) /\
    py_sum (owed_values after) = inr (PFloat 0%float).
Proof.
  intros A B C.
  assert (Hne : [A; B; C] <> []) by done.
  split; [exact Hne|]. split.
  - intros p Hp.
    destruct (proj1 equal_method_shares float _ 300%float [A; B; C] Hne) as [_ Hall].
    destruct (Hall p Hp) as [-> _]. reflexivity.
  - destruct (proj2 equal_method_shares 0%nat A B C) as (after & Hcall & _ & Hsum).
    + intros [|[|[|i]]] p; cbn; intros [= <-]; reflexivity.
    + lia.
    + by exists after.
Defined.

(** ** Writes that survive a failed payment check *)

(** C10.  The call writes into the caller's dictionaries: whenever it ends
    with the [ValueError] of the payment check, the participants are left
    exactly as the share computation made them, every one holding the
    [share_amount] (and, by method, [share_percentage] and [share_ratio])
    written before the check; so a participant list in which some
    [share_amount] was absent is not left as it was. *)
Theorem shares_written_before_payment_error
    (F : Type) (ops : PyFloat F) (total_amount : F) (participants : store F)
    (split_method : string) (total_paid : pyval F) (after : store F) :
  In split_method methods ->
  calculate_split_amounts total_amount participants split_method
    = (Raise (ValueError (total_paid_message total_paid total_amount)), after) ->
  compute_shares total_amount split_method
      (PInt (Z.of_nat (length participants))) participants = (Ret tt, after) /\
  Forall2 (share_written split_method) participants after /\
  (forall p', p' ∈ after -> exists x, p' !! "share_amount" = Some (PFloat x)) /\
  ((exists p, p ∈ participants /\ p !! "share_amount" = None) -> after <> participants).
Proof.
  intros Hm Hcall.
  destruct (calculate_paid_error_inv _ _ _ _ _ Hcall) as (Hshares & _ & _).
  pose proof (compute_shares_ret _ _ _ _ _ Hm Hshares) as Hw.
  split; [done|]. split; [done|]. split.
  - intros p' [i Hi]%list_elem_of_lookup.
    destruct (Forall2_lookup_r _ _ _ _ _ Hw Hi) as (p & _ & Hp).
    by eapply share_written_share_amount.
  - intros (p & [i Hi]%list_elem_of_lookup & Hnone) ->.
    destruct (Forall2_lookup_l _ _ _ _ _ Hw Hi) as (p' & Hi' & Hp).
    assert (p' = p) as -> by congruence.
    apply share_written_share_amount in Hp as [x Hx]. congruence.
Qed.

(** Two participants who paid 30 each on a total of 100. *)
Lemma shares_written_before_payment_error_witness :
  let participants : store float :=
    [ {[ "name" := PStr "A"; "amount_paid" := PFloat 30%float ]};
      {[ "name" := PStr "B"; "amount_paid" := PFloat 30%float ]} ] in
  let r := calculate_split_amounts 100%float participants "equal" in
  r.1 = Raise (ValueError (total_paid_message (PFloat 60%float) 100%float)) /\
  (forall p', p' ∈ r.2 -> exists x, p' !! "share_amount" = Some (PFloat x)) /\
  r.2 <> participants.
Proof.
  intros participants r.
  assert (Hr : calculate_split_amounts 100%float participants "equal"
               = (Raise (ValueError (total_paid_message (PFloat 60%float) 100%float)), r.2)).
  { vm_compute. reflexivity. }
  assert (Hm : In "equal" methods) by (left; reflexivity).
  destruct (shares_written_before_payment_error float _ 100%float participants "equal"
              (PFloat 60%float) r.2 Hm Hr) as (_ & _ & Hall & Hne).
  split; [vm_compute; reflexivity|]. split; [exact Hall|].
  apply Hne. eexists. split; [apply list_elem_of_here|]. vm_compute. reflexivity.
Defined.

(** ** Which fields a successful allocation populates *)

Lemma populated_insert_eq {F : Type} (p : dict F) (k : string) (v : pyval F) :
  is_number v = true -> populated (<[k := v]> p) k = true.
Proof. intros Hv. unfold populated. by rewrite lookup_insert_eq. Qed.

Lemma populated_insert_ne {F : Type} (p : dict F) (k k' : string) (v : pyval F) :
  k <> k' -> populated (<[k := v]> p) k' = populated p k'.
Proof. intros Hk. unfold populated. by rewrite lookup_insert_ne. Qed.

Ltac fields :=
  repeat first
    [ rewrite lookup_insert_eq
    | rewrite lookup_insert_ne by done
    | apply populated_insert_eq; done
    | rewrite populated_insert_ne by done ];
  done.

(** C5, as the code has it.  When the call returns, every participant
    holds a number under [share_amount] and under [amount_owed].  The
    [equal] method also writes [share_percentage] and [share_ratio = 1];
    the [ratio] method writes [share_percentage] and leaves [share_ratio]
    as it was given (absent when it was absent); the [percentage] method
    leaves both [share_percentage] and [share_ratio] as they were given. *)
Theorem fields_after_success
    (F : Type) (ops : PyFloat F) (total_amount : F) (participants : store F)
    (split_method : string) (after : store F) :
  In split_method methods ->
  calculate_split_amounts total_amount participants split_method = (Ret tt, after) ->
  Forall2 (fun p p' =>
      populated p' "share_amount" = true /\
      populated p' "amount_owed" = true /\
      (split_method = "equal" ->
         populated p' "share_percentage" = true /\ p' !! "share_ratio" = Some (PInt 1)) /\
      (split_method = "ratio" ->
         populated p' "share_percentage" = true /\ p' !! "share_ratio" = p !! "share_ratio") /\
      (split_method = "percentage" ->
         p' !! "share_percentage" = p !! "share_percentage" /\
         p' !! "share_ratio" = p !! "share_ratio"))
    participants after.
Proof.
  intros Hm Hcall.
  destruct (calculate_ret_inv _ _ _ _ Hcall) as (ps1 & tp & Hshares & _ & _ & Howe).
  pose proof (compute_shares_ret _ _ _ _ _ Hm Hshares) as Hw.
  apply for_each_ret_Forall2 in Howe.
  apply Forall2_same_length_lookup_2.
  { etrans; by eapply Forall2_length. }
  intros i p p' Hp Hp'.
  destruct (Forall2_lookup_l _ _ _ _ _ Hw Hp) as (p1 & Hp1 & Hsw).
  destruct (Forall2_lookup_l _ _ _ _ _ Howe Hp1) as (p'' & Hp'' & Ho).
  assert (p'' = p') as -> by congruence.
  apply owe_ret_inv in Ho as (d & v & _ & Hv%py_round2_number & ->).
  destruct Hsw as [(-> & x & y & ->)|[(-> & x & ->)|(-> & x & y & ->)]];
    unfold equal_update;
    repeat split; try (intros ?; simplify_eq); repeat split;
    solve [ fields ].
Qed.

(** Two participants, 50 % each, one of whom paid the 100. *)
Lemma fields_after_success_witness :
  let participants : store float :=
    [ {[ "name" := PStr "A"; "share_percentage" := PFloat 50%float;
         "amount_paid" := PFloat 100%float ]};
      {[ "name" := PStr "B"; "share_percentage" := PFloat 50%float ]} ] in
  let r := calculate_split_amounts 100%float participants "percentage" in
  r.1 = Ret tt /\
  Forall (fun p' => populated p' "share_amount" = true /\
                    populated p' "amount_owed" = true) r.2.
Proof.
  intros participants r.
  assert (Hr : calculate_split_amounts 100%float participants "percentage" = (Ret tt, r.2)).
  { vm_compute. reflexivity. }
  assert (Hm : In "percentage" methods) by (right; left; reflexivity).
  pose proof (fields_after_success float _ 100%float participants "percentage" r.2 Hm Hr)
    as Hall.
  split; [vm_compute; reflexivity|].
  apply Forall_lookup_2. intros i p' Hi.
  destruct (Forall2_lookup_r _ _ _ _ _ Hall Hi) as (p & _ & Hs & Ho & _).
  by split.
Defined.

(** C5, as the specification states it, fails: under the [percentage]
    method a participant given without [share_ratio] is returned without
    it. *)
Lemma all_four_fields_counterexample :
  ~ (forall (F : Type) (ops : PyFloat F) (total_amount : F) (participants : store F)
            (split_method : string) (after : store F),
       fgt total_amount (of_Z 0) = true ->
       participants <> [] ->
       In split_method methods ->
       calculate_split_amounts total_amount participants split_method = (Ret tt, after) ->
       forall p', p' ∈ after ->
         populated p' "share_amount" = true /\
         populated p' "share_percentage" = true /\
         populated p' "share_ratio" = true /\
         populated p' "amount_owed" = true).
Proof.
  intros Hclaim.
  pose (participants := [ ({[ "name" := PStr "A"; "share_percentage" := PFloat 50%float;
                              "amount_paid" := PFloat 100%float ]} : dict float);
                          {[ "name" := PStr "B"; "share_percentage" := PFloat 50%float ]} ]).
  pose (r := calculate_split_amounts 100%float participants "percentage").
  assert (Hr : calculate_split_amounts 100%float participants "percentage" = (Ret tt, r.2))
    by (vm_compute; reflexivity).
  assert (Hin : exists p', r.2 !! 0%nat = Some p' /\ populated p' "share_ratio" = false).
  { eexists. split; vm_compute; reflexivity. }
  destruct Hin as (p' & Hp' & Hpop).
  assert (Hpos : fgt 100%float (of_Z 0) = true) by (vm_compute; reflexivity).
  assert (Hne : participants <> []) by (unfold participants; discriminate).
  assert (Hm : In "percentage" methods) by (right; left; reflexivity).
  assert (Hin : p' ∈ r.2) by (eapply list_elem_of_lookup_2, Hp').
  destruct (Hclaim float _ 100%float participants "percentage" r.2 Hpos Hne Hm Hr p' Hin)
    as (_ & _ & Hratio & _).
  congruence.
Qed.

(** ** Participants whose fields hold numbers *)

Section TypedInputs.
Context {F : Type} `{PyFloat F}.

Implicit Types (p : dict F) (ps : store F) (v : pyval F).










End TypedInputs.

(** ** A ratio that was not given *)

(** C3 at the failing input.  Two participants sent without
    [share_ratio], one of whom paid the total of 100: the percentages are
    not involved and the payments add up, yet under the [ratio] method the
    call ends with [TypeError], neither a [ValueError] nor a return;
    [sum] meets the [None] that stands for the ratio not given.  With the
    key absent instead, the default 1 applies and the call returns with
    shares of 50.0 each. *)
Theorem ratio_not_given_raises_type_error :
  let participants := [dumped "A" 100%float; dumped "B" 0%float] in
  calculate_split_amounts 100%float participants "ratio" = (Raise TypeError, participants) /\
  (let r := calculate_split_amounts 100%float (map (delete "share_ratio") participants) "ratio" in
   r.1 = Ret tt /\
   map (fun p => p !! "share_amount") r.2
   = [Some (PFloat 50%float); Some (PFloat 50%float)]).
Proof. vm_compute. repeat split; reflexivity. Qed.

(** ** Conservation in exact arithmetic *)


Section ExactFacts.
Local Open Scope Q_scope.


Lemma decimal0_val (z : Z) : Exact.decimal z 0 == inject_Z z.
Proof. unfold Exact.decimal. by rewrite Qred_correct. Qed.

Lemma of_Z_val (z : Z) : of_Z z == inject_Z z.
Proof. apply decimal0_val. Qed.










(** ** Sums of lists that agree up to an error *)






(** ** The shares against the total *)







(** ** The settlement against the shares *)



End ExactFacts.





(* ===================================================================== *)
(** * Further properties of the split allocation *)
(* ===================================================================== *)

(** The percentage check comes before any write: when the call ends with
    the percentage [ValueError], the method is [percentage], the message
    carries the sum that was found, and the participants are untouched. *)
Theorem percentage_error_leaves_participants
    (F : Type) (ops : PyFloat F) (total_amount : F) (participants : store F)
    (split_method : string) (total_percentage : pyval F) (after : store F) :
  calculate_split_amounts total_amount participants split_method
    = (Raise (ValueError (percentage_message total_percentage)), after) ->
  split_method = "percentage" /\
  after = participants /\
  py_sum (percentage_values participants) = inr total_percentage /\
  differs total_percentage (PInt 100) = inr true.
Proof.
  rewrite calculate_unfold.
  destruct (compute_shares _ _ _ _) as [[[]|e] ps1] eqn:Hc.
  - rewrite settle_unfold.
    destruct (py_sum _) as [e|tp] eqn:Hs.
    { intros [= -> <-]. exfalso. revert Hs. apply res_no_value_error, sum_from_arith_only. }
    destruct (differs _ _) as [e|[]] eqn:Hd.
    + intros [= -> <-]. exfalso. revert Hd. apply res_no_value_error, differs_arith_only.
    + by intros [=].
    + intros Hr. exfalso. revert Hr. apply no_value_error, raises_for_each, raises_owe.
  - intros [= -> <-].
    apply compute_shares_value_error in Hc as (-> & -> & tp & Hs & Hd & [= <-]).
    done.
Qed.

(** Percentages 60 + 39.5 on binary64. *)
Lemma percentage_error_leaves_participants_witness :
  let participants : store float :=
    [ {[ "name" := PStr "A"; "share_percentage" := PFloat 60%float;
         "amount_paid" := PFloat 100%float ]};
      {[ "name" := PStr "B"; "share_percentage" := PFloat 39.5%float ]} ] in
  let r := calculate_split_amounts 100%float participants "percentage" in
  r.1 = Raise (ValueError (percentage_message (PFloat 99.5%float))) /\
  r.2 = participants.
Proof.
  intros participants r.
  assert (Hr : calculate_split_amounts 100%float participants "percentage"
               = (Raise (ValueError (percentage_message (PFloat 99.5%float))), r.2))
    by (vm_compute; reflexivity).
  destruct (percentage_error_leaves_participants float _ _ _ _ _ _ Hr) as (_ & Hsame & _).
  split; [vm_compute; reflexivity|exact Hsame].
Defined.

(** An empty participant list: the [equal] method divides by the number of
    participants and raises [ZeroDivisionError]. *)
Theorem equal_split_of_nobody (F : Type) (ops : PyFloat F) (total_amount : F) :
  calculate_split_amounts total_amount [] "equal" = (Raise ZeroDivisionError, []).
Proof. reflexivity. Qed.

(** ** What the call never touches *)

Section Frame.
Context {F : Type} `{PyFloat F}.

(** a computation on one dictionary that leaves the keys outside
    [written_keys] alone, however it ends *)
Definition writes_only {A} (m : M F (dict F) A) : Prop :=
  forall p o p', m p = (o, p') ->
    forall k, k ∉ written_keys -> p' !! k = p !! k.

Lemma writes_bind {A B} (m : M F (dict F) A) (k : A -> M F (dict F) B) :
  writes_only m -> (forall a, writes_only (k a)) -> writes_only (bind m k).
Proof.
  intros Hm Hk p o p'. unfold bind.
  destruct (m p) as [[a|e] p1] eqn:Hp.
  - intros Hr key Hkey. rewrite (Hk a _ _ _ Hr key Hkey). by eapply Hm.
  - intros [= <- <-]. by eapply Hm.
Qed.

Lemma writes_lift {A} (r : res F A) : writes_only (lift r).
Proof. destruct r; by intros p o p' [= <- <-]. Qed.

Lemma writes_getitem key dflt : writes_only (getitem key dflt).
Proof. by intros p o p' [= <- <-]. Qed.

Lemma writes_setitem key v : key ∈ written_keys -> writes_only (setitem key v).
Proof.
  intros Hin p o p' [= <- <-] k Hk. apply lookup_insert_ne. by intros ->.
Qed.

Lemma writes_for_each (body : M F (dict F) unit) (ps : store F) :
  writes_only body ->
  Forall2 (fun p p' => forall k, k ∉ written_keys -> p' !! k = p !! k)
          ps (for_each body ps).2.
Proof.
  intros Hb. induction ps as [|p rest IH]; simpl; [constructor|].
  destruct (body p) as [[[]|e] p'] eqn:Hp.
  - destruct (for_each body rest) as [o rest']; simpl in *.
    constructor; [by eapply Hb|done].
  - simpl. constructor; [by eapply Hb|].
    apply Forall2_same_length_lookup_2; [done|]. intros i x y Hx Hy k _. congruence.
Qed.

Ltac writes :=
  repeat first
    [ apply writes_bind; [|intros ?]
    | apply writes_lift
    | apply writes_getitem
    | apply writes_setitem; unfold written_keys; set_solver ].

Lemma writes_owe : writes_only owe.
Proof. unfold owe. writes. Qed.

Lemma writes_equal_body share n : writes_only (equal_body share n).
Proof. unfold equal_body. writes. Qed.

Lemma writes_percentage_body total_amount : writes_only (percentage_body total_amount).
Proof. unfold percentage_body. writes. Qed.

Lemma writes_ratio_body total_amount total_ratio :
  writes_only (ratio_body total_amount total_ratio).
Proof. unfold ratio_body. writes. Qed.

(** the frame relation between the participants before and after *)
Definition framed (ps ps' : store F) : Prop :=
  Forall2 (fun p p' => forall k, k ∉ written_keys -> p' !! k = p !! k) ps ps'.

Lemma framed_refl ps : framed ps ps.
Proof.
  apply Forall2_same_length_lookup_2; [done|]. intros i x y Hx Hy k _. congruence.
Qed.

Lemma framed_trans ps1 ps2 ps3 : framed ps1 ps2 -> framed ps2 ps3 -> framed ps1 ps3.
Proof.
  intros H12 H23. apply Forall2_same_length_lookup_2.
  { etrans; by eapply Forall2_length. }
  intros i p1 p3 Hp1 Hp3 k Hk.
  destruct (Forall2_lookup_l _ _ _ _ _ H12 Hp1) as (p2 & Hp2 & Ha).
  destruct (Forall2_lookup_l _ _ _ _ _ H23 Hp2) as (q & Hq & Hb).
  assert (q = p3) as -> by congruence.
  rewrite Hb by done. by apply Ha.
Qed.

Lemma compute_shares_framed total_amount split_method n ps :
  framed ps (compute_shares total_amount split_method n ps).2.
Proof.
  unfold compute_shares.
  destruct (String.eqb split_method "equal").
  { unfold bind, lift, raise, ret.
    destruct (py_truediv _ _); [apply framed_refl|].
    apply writes_for_each, writes_equal_body. }
  destruct (String.eqb split_method "percentage").
  { unfold bind, gen, lift, raise, ret.
    destruct (py_sum _); [apply framed_refl|].
    destruct (differs _ _) as [|[]]; [apply framed_refl|apply framed_refl|].
    apply writes_for_each, writes_percentage_body. }
  destruct (String.eqb split_method "ratio").
  { unfold bind, gen, lift, raise, ret.
    destruct (py_sum _); [apply framed_refl|].
    apply writes_for_each, writes_ratio_body. }
  apply framed_refl.
Qed.

Lemma settle_framed total_amount ps : framed ps (settle total_amount ps).2.
Proof.
  rewrite settle_unfold.
  destruct (py_sum _); [apply framed_refl|].
  destruct (differs _ _) as [|[]]; [apply framed_refl|apply framed_refl|].
  apply writes_for_each, writes_owe.
Qed.

End Frame.

(** However the call ends, and whatever the method string, it keeps the
    number of participants, and in every participant every key other than
    [share_amount], [share_percentage], [share_ratio] and [amount_owed]
    ([name], [phone_number], [amount_paid], ...) keeps its value or stays
    absent. *)
Theorem allocation_frame
    (F : Type) (ops : PyFloat F) (total_amount : F) (participants : store F)
    (split_method : string) :
  let after := (calculate_split_amounts total_amount participants split_method).2 in
  length after = length participants /\
  forall i p p' k,
    participants !! i = Some p -> after !! i = Some p' ->
    k ∉ written_keys -> p' !! k = p !! k.
Proof.
  intros after.
  assert (Hfr : framed participants after).
  { subst after. rewrite calculate_unfold.
    pose proof (compute_shares_framed total_amount split_method
                  (PInt (Z.of_nat (length participants))) participants) as H1.
    destruct (compute_shares _ _ _ _) as [[[]|e] ps1]; simpl in H1; [|done].
    eapply framed_trans; [exact H1|]. apply settle_framed. }
  split.
  - symmetry. by eapply Forall2_length.
  - intros i p p' k Hp Hp' Hk.
    destruct (Forall2_lookup_l _ _ _ _ _ Hfr Hp) as (q & Hq & Hkeep).
    assert (q = p') as -> by congruence. by apply Hkeep.
Qed.

